(** * Digital-marketing budget optimiser (Midterm/main.py, Midterm/budget_optimizer_gui.py)
    and the stock class (python projects/s4.py)

    A shallow embedding of the numerical pipeline shared by the two scripts:
    response curves, sample generation, budget allocation, the A/B test, the
    twelve-month forecast and the two entry points ([main] for the console,
    [run_optimizer] for the Tk form).

    Conventions.
    - A Python/numpy [float] is a binary64 number, Rocq's primitive [float]:
      [+], [-], [*], [/] and the comparisons are the IEEE 754 operations, with
      their rounding, infinities, signed zeros and NaN.  A decimal literal
      denotes the nearest binary64 number, as in Python.
    - Python [int] arguments ([n], [seed]) are integers of [Z].
    - NumPy and SciPy are not part of the repository.  What the scripts call
      from them ([np.exp], [np.random], [minimize], [ttest_ind], [quad]) is an
      interface, the class [Library]; the scripts are embedded once, for every
      implementation of that interface.
    - A call that may raise returns an [outcome]; the global NumPy generator
      and what the user sees are threaded through a state, [world]. *)

From Stdlib Require Import Floats List String ZArith Bool Lia.
Import ListNotations.

Set Warnings "-inexact-float".

Open Scope float_scope.

(** ** Python values and effects *)

(** Exceptions, by class.  [ValueError] is the only class the scripts name
    (they raise it and catch it); every other class is [OtherError]. *)
Inductive exn : Type :=
| ValueError
| OtherError (cls : string).

(** The result of a call: a value, or a raised exception. *)
Inductive outcome (A : Type) : Type :=
| Ok (a : A)
| Raise (e : exn).
Arguments Ok {A} a.
Arguments Raise {A} e.

Definition obind {A B : Type} (c : outcome A) (k : A -> outcome B) : outcome B :=
  match c with
  | Ok a => k a
  | Raise e => Raise e
  end.

Declare Scope outcome_scope.
Delimit Scope outcome_scope with outcome.
Notation "x <- c ;; k" := (obind c (fun x => k))
  (at level 61, c at next level, right associativity) : outcome_scope.
Notation "' pat <- c ;; k" := (obind c (fun x => match x with pat => k end))
  (at level 61, pat pattern, c at next level, right associativity) : outcome_scope.

(** A numpy array of two floats: the optimisation variable [x], read with
    [x[0]] and [x[1]]. *)
Definition vec : Type := (float * float)%type.

(** The built-in [sum(x)] on such an array: it starts from the integer 0. *)
Definition py_sum (x : vec) : float := (0 + fst x) + snd x.

(** The constraint dictionary [{'type': ..., 'fun': ...}] given to the solver. *)
Record constraint : Type := {
  c_type : string;
  c_fun : vec -> float
}.

(** The fields of SciPy's [OptimizeResult] that matter here: [result.x],
    [result.fun] and [result.success]. *)
Record OptimizeResult : Type := {
  res_x : vec;
  res_fun : float;
  res_success : bool
}.

(** ** The NumPy / SciPy interface

    - [np_random_seed seed] is [np.random.seed(seed)]: the state it installs
      in the global generator, a function of [seed] alone, or the error NumPy
      raises for a seed it refuses.
    - [np_random_normal loc scale size] is [np.random.normal]: it reads and
      advances the global generator.
    - [np_exp] is [np.exp] on one float.
    - [minimize fun x0 bounds constraints] is [scipy.optimize.minimize].
    - [ttest_ind a b] is [scipy.stats.ttest_ind] with its default arguments.
    - [quad f a b] is [scipy.integrate.quad]: the value and the error
      estimate. *)
Class Library : Type := {
  rng_state : Type;
  np_random_seed : Z -> outcome rng_state;
  np_random_normal : float -> float -> Z -> rng_state -> outcome (list float) * rng_state;
  np_exp : float -> float;
  minimize : (vec -> float) -> vec -> list (float * float) -> constraint
             -> outcome OptimizeResult;
  ttest_ind : list float -> list float -> outcome (float * float);
  quad : (float -> float) -> float -> float -> outcome (float * float)
}.

(** The four stages of the pipeline. *)
Inductive stage : Type :=
| SampleGenerator
| Allocator
| SignificanceTester
| Forecaster.

(** The figures of a run, before formatting.  The console prints all of
    them; the form displays all but the t-statistic. *)
Record report : Type := {
  r_total_budget : float;
  r_budget_A : float;
  r_budget_B : float;
  r_max_roi : float;
  r_t_stat : float;
  r_p_val : float;
  r_significant : bool;
  r_forecast : float
}.

(** What a run leaves behind, in order: messages for the user and, as a
    record of the control flow, the stages entered. *)
Inductive event : Type :=
| Print (text : string)
| ShowError (title message : string)
| PrintResults (r : report)
| ShowResults (r : report)
| Enter (s : stage).

Section Pipeline.

Context {L : Library}.

(** The process state: the global NumPy generator and the trace. *)
Record world : Type := {
  rng : rng_state;
  trace : list event
}.

(** Programs: they read and change the world and may raise; what was done
    before an exception stays done. *)
Definition M (A : Type) : Type := world -> outcome A * world.

Definition ret {A : Type} (a : A) : M A := fun w => (Ok a, w).

Definition bind {A B : Type} (c : M A) (k : A -> M B) : M B :=
  fun w =>
    match c w with
    | (Ok a, w') => k a w'
    | (Raise e, w') => (Raise e, w')
    end.

Definition lift {A : Type} (o : outcome A) : M A := fun w => (o, w).

Definition emit (e : event) : M unit :=
  fun w => (Ok tt, {| rng := rng w; trace := trace w ++ [e] |}).

(** Entering a stage is recorded, then the stage runs. *)
Definition call {A : Type} (s : stage) (c : M A) : M A :=
  bind (emit (Enter s)) (fun _ => c).

Declare Scope prog_scope.
Delimit Scope prog_scope with prog.
Notation "x <- c ;; k" := (bind c (fun x => k))
  (at level 61, c at next level, right associativity) : prog_scope.
Notation "' pat <- c ;; k" := (bind c (fun x => match x with pat => k end))
  (at level 61, pat pattern, c at next level, right associativity) : prog_scope.
Notation "c ;; k" := (bind c (fun _ => k))
  (at level 61, right associativity) : prog_scope.

(** *** Response model *)

(** [roi_curve_A], the same text in both scripts. *)
Definition roi_curve_A (budget : float) : float :=
  2000 * (1 - np_exp (-0.0003 * budget)).

(** [roi_curve_B]. *)
Definition roi_curve_B (budget : float) : float :=
  1500 * (1 - np_exp (-0.0004 * budget)).

(** *** Sample generator *)

Definition seed_global (seed : Z) : M unit :=
  fun w =>
    match np_random_seed seed with
    | Ok st => (Ok tt, {| rng := st; trace := trace w |})
    | Raise e => (Raise e, w)
    end.

Definition normal_global (loc scale : float) (size : Z) : M (list float) :=
  fun w =>
    let '(o, st) := np_random_normal loc scale size (rng w) in
    (o, {| rng := st; trace := trace w |}).

(** [generate_campaign_data(n, seed)]; the defaults [n=100], [seed=42] are
    supplied by the callers below. *)
Definition generate_campaign_data (n : Z) (seed : Z) : M (list float * list float) :=
  (seed_global seed ;;
   campaign_A <- normal_global 0.15 0.02 n ;;
   campaign_B <- normal_global 0.10 0.02 n ;;
   ret (campaign_A, campaign_B))%prog.

(** *** Allocator *)

(** The inner function [neg_total_roi]; it captures nothing of the call. *)
Definition neg_total_roi (x : vec) : float :=
  - (roi_curve_A (fst x) + roi_curve_B (snd x)).

Definition constraints (total_budget : float) : constraint :=
  {| c_type := "eq"; c_fun := fun x => total_budget - py_sum x |}.

Definition bounds (total_budget : float) : list (float * float) :=
  [(0, total_budget); (0, total_budget)].

Definition initial_guess (total_budget : float) : vec :=
  (total_budget / 2, total_budget / 2).

(** [optimize_budget]: the solver's answer is returned as it comes;
    [result.success] is not read. *)
Definition optimize_budget (total_budget : float) : outcome (vec * float) :=
  (result <- minimize neg_total_roi (initial_guess total_budget)
                      (bounds total_budget) (constraints total_budget) ;;
   Ok (res_x result, - res_fun result))%outcome.

(** *** Significance tester *)

Definition ab_test (data_A data_B : list float) : outcome (float * float) :=
  ('(t_stat, p_val) <- ttest_ind data_A data_B ;;
   Ok (t_stat, p_val))%outcome.

(** The part of a run that yields the A/B figures: the samples are drawn,
    then tested. *)
Definition sampled_ab_test (n seed : Z) : M (float * float) :=
  ('(campaign_A, campaign_B) <- generate_campaign_data n seed ;;
   lift (ab_test campaign_A campaign_B))%prog.

(** *** Forecaster *)

(** [forecast_revenue]: the integrand [lambda t: roi_curve_A(monthly_budget)]
    ignores [t]; the error estimate of [quad] is dropped. *)
Definition forecast_revenue (budget_A : float) : outcome float :=
  let monthly_budget := budget_A / 12 in
  ('(revenue, _) <- quad (fun t : float => roi_curve_A monthly_budget) 0 12 ;;
   Ok revenue)%outcome.

(** *** Entry points *)

(** The steps both entry points run once the budget is accepted, up to the
    figures they display. *)
Definition pipeline (budget : float) : M report :=
  ('(campaign_A, campaign_B) <- call SampleGenerator (generate_campaign_data 100 42) ;;
   '((budget_A, budget_B), max_roi) <- call Allocator (lift (optimize_budget budget)) ;;
   '(t_stat, p_val) <- call SignificanceTester (lift (ab_test campaign_A campaign_B)) ;;
   forecast <- call Forecaster (lift (forecast_revenue budget_A)) ;;
   ret {| r_total_budget := budget;
          r_budget_A := budget_A;
          r_budget_B := budget_B;
          r_max_roi := max_roi;
          r_t_stat := t_stat;
          r_p_val := p_val;
          r_significant := (p_val <? 0.05);
          r_forecast := forecast |})%prog.

(** [main] of main.py.  [typed] is the outcome of [float(input(...))]: the
    float the text converts to (the texts nan and inf convert too), or the
    exception raised while reading or converting it. *)
Definition main (typed : outcome float) : M unit :=
  match typed with
  | Ok user_input =>
      if user_input <=? 0
      then emit (Print "Please enter a positive number.")
      else (r <- pipeline user_input ;; emit (PrintResults r))%prog
  | Raise ValueError =>
      emit (Print "Invalid input. Please enter a numeric value.")
  | Raise e => lift (Raise e)
  end.

(** [run_optimizer] of budget_optimizer_gui.py.  [typed] is the outcome of
    [float(entry.get())].  A budget that compares [<= 0] raises [ValueError]
    inside the [try], so both rejections share one handler. *)
Definition run_optimizer (typed : outcome float) : M unit :=
  let tried :=
    (budget <- typed ;;
     if budget <=? 0 then Raise ValueError else Ok budget)%outcome in
  match tried with
  | Ok budget => (r <- pipeline budget ;; emit (ShowResults r))%prog
  | Raise ValueError =>
      emit (ShowError "Input Error" "Please enter a valid positive number.")
  | Raise e => lift (Raise e)
  end.

(** The allocations the solver is asked to search: the equality constraint
    holds and each coordinate is within its bound. *)
Definition feasible (total_budget : float) (x : vec) : Prop :=
  (c_fun (constraints total_budget) x =? 0) = true
  /\ Forall2 (fun xi b => (fst b <=? xi) = true /\ (xi <=? snd b) = true)
       [fst x; snd x] (bounds total_budget).

End Pipeline.

Arguments world L : clear implicits.
Arguments M L A : clear implicits.

(** The message that answers a rejected input at the console. *)
Definition rejection_text (typed : outcome float) : string :=
  match typed with
  | Ok _ => "Please enter a positive number."
  | Raise _ => "Invalid input. Please enter a numeric value."
  end.

(** The stages a trace went through. *)
Fixpoint stages_entered (t : list event) : list stage :=
  match t with
  | [] => []
  | Enter s :: t' => s :: stages_entered t'
  | _ :: t' => stages_entered t'
  end.

(** The reports a trace shows, from either entry point. *)
Fixpoint reports (t : list event) : list report :=
  match t with
  | [] => []
  | PrintResults r :: t' => r :: reports t'
  | ShowResults r :: t' => r :: reports t'
  | _ :: t' => reports t'
  end.

(** ** A stand-in library

    Used to run the scripts on concrete inputs.
    - The generator state counts the draws; a draw returns its mean.
    - The exponential is right where [np.exp] rounds to 1, for arguments
      within 1e-17 of zero, and NaN on NaN; further out it saturates to 0 or
      to infinity.
    - The solver stops where it starts, as SciPy's does where the objective
      is flat, and reports success when the constraint holds there.
    - The t-test of an empty sample is the NaN pair, as SciPy returns it.
    - The quadrature is the one-point rule. *)
Module Double.

Definition seed (s : Z) : outcome Z :=
  if ((0 <=? s) && (s <? 2 ^ 32))%Z%bool then Ok s else Raise ValueError.

Definition normal (loc scale : float) (size : Z) (st : Z) : outcome (list float) * Z :=
  if (size <? 0)%Z then (Raise ValueError, st)
  else (Ok (repeat loc (Z.to_nat size)), (st + size)%Z).

Definition exp_near_zero (y : float) : float :=
  if is_nan y then nan
  else if y <? 0 then (if -1e-17 <? y then 1 else 0)
  else if 0 <? y then (if y <? 1e-17 then 1 else infinity)
  else 1.

Definition solver (f : vec -> float) (x0 : vec) (bnds : list (float * float))
  (c : constraint) : outcome OptimizeResult :=
  Ok {| res_x := x0; res_fun := f x0; res_success := (c_fun c x0 =? 0) |}.

Definition ttest (a b : list float) : outcome (float * float) :=
  match a, b with
  | [], _ | _, [] => Ok (nan, nan)
  | _, _ => Ok (0, 1)
  end.

Definition one_point (f : float -> float) (a b : float) : outcome (float * float) :=
  Ok (f a * (b - a), 0).

Definition lib : Library :=
  {| rng_state := Z;
     np_random_seed := seed;
     np_random_normal := normal;
     np_exp := exp_near_zero;
     minimize := solver;
     ttest_ind := ttest;
     quad := one_point |}.

Definition w0 : world lib := @Build_world lib 0%Z [].

End Double.

(** The same library with a solver that refuses its arguments with
    [ValueError]. *)
Module Variant.

Definition refusing_solver (f : vec -> float) (x0 : vec) (bnds : list (float * float))
  (c : constraint) : outcome OptimizeResult :=
  Raise ValueError.

Definition refusing : Library :=
  {| rng_state := Z;
     np_random_seed := Double.seed;
     np_random_normal := Double.normal;
     np_exp := Double.exp_near_zero;
     minimize := refusing_solver;
     ttest_ind := Double.ttest;
     quad := Double.one_point |}.

Definition w_refusing : world refusing := @Build_world refusing 0%Z [].

End Variant.

(** ** The stock class of s4.py

    [Stock.data] is a pandas DataFrame.  It is read here as its columns in
    order, each a name and a series of floats; the date index is left out,
    since no computation below reads it.  The download ([yfinance]) and the
    drawing ([matplotlib]) are not modelled: [plot_return_dist] is embedded
    up to the number of bins it hands to the histogram. *)
Module Stock.

Definition series : Type := list float.

Definition frame : Type := list (string * series).

Definition RuntimeError : exn := OtherError "RuntimeError".

Definition KeyError : exn := OtherError "KeyError".

(** [Series.diff()]: each value minus the one before it; the first entry
    has none before it and is NaN. *)
Fixpoint diff_from (prev : float) (s : series) : series :=
  match s with
  | [] => []
  | v :: s' => (v - prev) :: diff_from v s'
  end.

Definition diff (s : series) : series :=
  match s with
  | [] => []
  | v :: s' => nan :: diff_from v s'
  end.

(** [Series.dropna()]. *)
Fixpoint dropna (s : series) : list float :=
  match s with
  | [] => []
  | v :: s' => if is_nan v then dropna s' else v :: dropna s'
  end.

(** [DataFrame.empty]: no column, or no row. *)
Definition empty (df : frame) : bool :=
  match df with
  | [] => true
  | (_, []) :: _ => true
  | _ => false
  end.

(** [df[name]]; a missing column is a [KeyError]. *)
Fixpoint get_col (df : frame) (name : string) : option series :=
  match df with
  | [] => None
  | (n, c) :: df' => if String.eqb n name then Some c else get_col df' name
  end.

(** [df[name] = c]: the column is replaced where it stands, or added last. *)
Fixpoint set_col (df : frame) (name : string) (c : series) : frame :=
  match df with
  | [] => [(name, c)]
  | (n, c0) :: df' =>
      if String.eqb n name then (n, c) :: df' else (n, c0) :: set_col df' name c
  end.

(** Every column of a DataFrame has one entry per row. *)
Definition rectangular (df : frame) (rows : nat) : Prop :=
  Forall (fun col => List.length (snd col) = rows) df.

Section Returns.

(** [np.log] and [round(4)] on one float; what NumPy computes is not fixed
    here. *)
Variable np_log : float -> float.
Variable round4 : float -> float.

(** [Stock.calc_returns]: from the data of the object to its data after the
    call, or to the exception raised, in which case the data is as before. *)
Definition calc_returns (data : frame) : outcome frame :=
  if empty data then Raise RuntimeError
  else
    match get_col data "close" with
    | None => Raise KeyError
    | Some s =>
        let data1 := set_col data "price_change" (diff s) in
        Ok (set_col data1 "instant_return" (map round4 (diff (map np_log s))))
    end.

End Returns.

(** [Stock.plot_return_dist], up to the number of bins given to the
    histogram.  [int(np.sqrt(len(r)))] is the integer square root of the
    length (exact below 2^52 entries). *)
Definition plot_return_dist_bins (data : frame) (bins : option Z) : outcome Z :=
  match get_col data "instant_return" with
  | None => Raise KeyError
  | Some c =>
      let r := dropna c in
      match r with
      | [] => Raise RuntimeError
      | _ :: _ =>
          Ok (match bins with
              | Some b => b
              | None => Z.max 15 (Z.sqrt (Z.of_nat (List.length r)))
              end)
      end
  end.

End Stock.

(** ** Binary64 facts

    What the theorems below need of IEEE arithmetic: the sign of a product,
    and the sign of [1 - e] for [e] on either side of 1. *)

(** [s] is NaN, a zero, or has the sign [b] ([true] for negative). *)
Definition sign_or_nan (b : bool) (s : spec_float) : Prop :=
  match s with
  | S754_nan => True
  | S754_zero _ => True
  | S754_infinity s' => s' = b
  | S754_finite s' _ _ => s' = b
  end.

(** The same of a float. *)
Definition fsign (b : bool) (x : float) : Prop := sign_or_nan b (Prim2SF x).

(** ** Properties *)

Lemma sign_or_nan_not_above (s : spec_float) :
  SFltb (S754_zero false) s = false <-> sign_or_nan true s.
Proof.
  destruct s as [z|i| |f m e]; simpl; try tauto.
  - destruct i; simpl; split; intro H; try reflexivity; discriminate.
  - destruct f; simpl; split; intro H; try reflexivity; discriminate.
Qed.

Lemma sign_or_nan_not_below (s : spec_float) :
  SFltb s (S754_zero false) = false <-> sign_or_nan false s.
Proof.
  destruct s as [z|i| |f m e]; simpl; try tauto.
  - destruct i; simpl; split; intro H; try reflexivity; discriminate.
  - destruct f; simpl; split; intro H; try reflexivity; discriminate.
Qed.

(** Rounding keeps the sign it is given. *)
Lemma binary_round_aux_sign (sx : bool) (mx ex : Z) (lx : location) :
  sign_or_nan sx (binary_round_aux prec emax sx mx ex lx).
Proof.
  unfold binary_round_aux.
  destruct (shr_fexp prec emax mx ex lx) as [mrs' e'].
  destruct (shr_fexp prec emax _ e' loc_Exact) as [mrs'' e''].
  destruct (shr_m mrs'') as [|m|m]; [exact I | | exact I].
  destruct (Z.leb e'' (emax - prec)); reflexivity.
Qed.

Lemma binary_round_sign (sx : bool) (mx : positive) (ex : Z) :
  sign_or_nan sx (binary_round prec emax sx mx ex).
Proof.
  unfold binary_round.
  destruct (shl_align mx ex _) as [mz ez].
  apply binary_round_aux_sign.
Qed.

Lemma binary_normalize_sign (m e : Z) :
  ((m <= 0)%Z -> sign_or_nan true (binary_normalize prec emax m e false))
  /\ ((0 <= m)%Z -> sign_or_nan false (binary_normalize prec emax m e false)).
Proof.
  destruct m as [|p|p]; simpl; split; intro H; trivial;
    try apply binary_round_sign; lia.
Qed.

(** The sign of a product is the product of the signs. *)
Lemma SFmul_sign (bx bq : bool) (x y : spec_float) :
  sign_or_nan bx x -> sign_or_nan bq y ->
  sign_or_nan (xorb bx bq) (SF64mul x y).
Proof.
  unfold SF64mul.
  destruct x as [sx|sx| |sx mx ex], y as [sy|sy| |sy my ey]; simpl;
    intros Hx Hy; subst; trivial.
  apply binary_round_aux_sign.
Qed.

Lemma digits2_bounds (m : positive) :
  (2 ^ (Zpos (digits2_pos m) - 1) <= Zpos m < 2 ^ Zpos (digits2_pos m))%Z.
Proof.
  induction m as [p IH|p IH|]; simpl digits2_pos.
  - rewrite Pos2Z.inj_succ.
    replace (Z.succ (Zpos (digits2_pos p)) - 1)%Z
      with (Z.succ (Zpos (digits2_pos p) - 1)) by lia.
    rewrite !Z.pow_succ_r by lia. lia.
  - rewrite Pos2Z.inj_succ.
    replace (Z.succ (Zpos (digits2_pos p)) - 1)%Z
      with (Z.succ (Zpos (digits2_pos p) - 1)) by lia.
    rewrite !Z.pow_succ_r by lia. lia.
  - simpl. lia.
Qed.

Lemma iter_xO_value (m d : positive) :
  Zpos (Pos.iter xO m d) = (Zpos m * 2 ^ Zpos d)%Z.
Proof.
  induction d as [|d IH] using Pos.peano_ind.
  - simpl. lia.
  - rewrite Pos.iter_succ, Pos2Z.inj_xO, IH, Pos2Z.inj_succ, Z.pow_succ_r by lia.
    lia.
Qed.

Lemma shl_align_value (mx : positive) (ex ex' : Z) :
  (ex' <= ex)%Z ->
  Zpos (fst (shl_align mx ex ex')) = (Zpos mx * 2 ^ (ex - ex'))%Z.
Proof.
  intro Hle. unfold shl_align.
  destruct (ex' - ex)%Z as [|d|d] eqn:Hd.
  - replace (ex - ex')%Z with 0%Z by lia. simpl. lia.
  - lia.
  - simpl. rewrite iter_xO_value.
    replace (ex - ex')%Z with (Zpos d) by lia. reflexivity.
Qed.

(** A valid binary64 mantissa has at most 53 bits, and exactly 53 above the
    subnormal range. *)
Lemma valid_mantissa (s : bool) (m : positive) (e : Z) :
  valid_binary (S754_finite s m e) = true ->
  (Zpos m < 2 ^ 53)%Z /\ ((-1074 < e)%Z -> (2 ^ 52 <= Zpos m)%Z).
Proof.
  unfold SpecFloat.valid_binary, bounded, canonical_mantissa, fexp, emin, prec, emax.
  intro H. apply andb_prop in H. destruct H as [Hc _].
  apply Z.eqb_eq in Hc.
  pose proof (digits2_bounds m) as [Hlo Hhi].
  split.
  - assert (Hd : (Zpos (digits2_pos m) <= 53)%Z) by lia.
    apply Z.lt_le_trans with (2 ^ Zpos (digits2_pos m))%Z; [exact Hhi|].
    apply Z.pow_le_mono_r; lia.
  - intro He.
    assert (Hd : Zpos (digits2_pos m) = 53%Z) by lia.
    rewrite Hd in Hlo. exact Hlo.
Qed.


(** [1 - e] is not below zero when [e] is not above 1. *)
Lemma SFsub_one_not_below (e : spec_float) :
  valid_binary e = true ->
  SFltb (S754_finite false 4503599627370496 (-52)) e = false ->
  sign_or_nan false (SF64sub (S754_finite false 4503599627370496 (-52)) e).
Proof.
  intros Hv Hlt.
  destruct e as [s|s| |s m ex].
  - reflexivity.
  - destruct s; [reflexivity | discriminate Hlt].
  - exact I.
  - apply valid_mantissa in Hv. destruct Hv as [Hsmall _].
    unfold SF64sub, SFsub. cbv zeta.
    apply binary_normalize_sign.
    destruct s; unfold cond_Zopp.
    + rewrite Z.sub_opp_r.
      apply Z.add_nonneg_nonneg; apply Pos2Z.is_nonneg.
    + unfold SFltb, SFcompare in Hlt.
      assert (Hex : (ex <= -52)%Z).
      { destruct (Z.compare_spec (-52) ex) as [Heq|Hl|Hg].
        - subst ex. apply Z.le_refl.
        - discriminate Hlt.
        - apply Z.lt_le_incl. exact Hg. }
      rewrite Z.min_r by exact Hex.
      rewrite (shl_align_value _ (-52) ex) by exact Hex.
      rewrite (shl_align_value m ex ex) by (apply Z.le_refl).
      rewrite Z.sub_diag, Z.pow_0_r, Z.mul_1_r.
      apply Z.le_0_sub.
      destruct (Z.compare_spec (-52) ex) as [Heq|Hl|Hg].
      * subst ex. rewrite Z.sub_diag, Z.pow_0_r, Z.mul_1_r.
        pose proof (Pos.compare_spec 4503599627370496 m) as Hc.
        unfold Pos.compare in Hc.
        destruct Hc as [He|Hl|Hg].
        -- subst m. apply Z.le_refl.
        -- discriminate Hlt.
        -- apply Z.lt_le_incl. exact Hg.
      * exfalso. apply (Z.lt_irrefl ex).
        apply Z.le_lt_trans with (-52)%Z; assumption.
      * assert (Hp : (2 ^ 1 <= 2 ^ (-52 - ex))%Z).
        { apply Z.pow_le_mono_r; [reflexivity|]. clear - Hg. lia. }
        apply Z.lt_le_incl.
        apply Z.lt_le_trans with (2 ^ 53)%Z; [exact Hsmall|].
        change (2 ^ 53)%Z with (4503599627370496 * 2 ^ 1)%Z.
        apply Z.mul_le_mono_nonneg_l; [discriminate | exact Hp].
Qed.

Lemma Prim2SF_zero : Prim2SF 0 = S754_zero false.
Proof. reflexivity. Qed.

Lemma Prim2SF_one : Prim2SF 1 = S754_finite false 4503599627370496 (-52).
Proof. reflexivity. Qed.

Lemma Prim2SF_nan : Prim2SF nan = S754_nan.
Proof. reflexivity. Qed.

Lemma fsign_mul (bx bq : bool) (x y : float) :
  fsign bx x -> fsign bq y -> fsign (xorb bx bq) (x * y).
Proof.
  unfold fsign. rewrite mul_spec. apply SFmul_sign.
Qed.

Lemma fsign_not_below (x : float) : (x <? 0) = false <-> fsign false x.
Proof.
  unfold fsign. rewrite ltb_spec, Prim2SF_zero. apply sign_or_nan_not_below.
Qed.

Lemma fsign_not_above (x : float) : (0 <? x) = false <-> fsign true x.
Proof.
  unfold fsign. rewrite ltb_spec, Prim2SF_zero. apply sign_or_nan_not_above.
Qed.



Lemma fsign_one_minus_not_below (e : float) : (1 <? e) = false -> fsign false (1 - e).
Proof.
  intro H. rewrite ltb_spec, Prim2SF_one in H.
  unfold fsign. rewrite sub_spec, Prim2SF_one.
  apply SFsub_one_not_below; [apply Prim2SF_valid | exact H].
Qed.


(** The same curve is not below zero from zero spend on, when the
    exponential is not above 1 on arguments that are not positive. *)
Lemma curve_not_below (exp : float -> float) (scale rate spend : float) :
  fsign false scale -> fsign true rate ->
  (forall y, (0 <? y) = false -> (1 <? exp y) = false) ->
  (spend <? 0) = false ->
  (scale * (1 - exp (rate * spend)) <? 0) = false.
Proof.
  intros Hscale Hrate Hexp Hspend.
  apply fsign_not_below.
  apply (fsign_mul false false); [exact Hscale|].
  apply fsign_one_minus_not_below, Hexp, fsign_not_above.
  apply (fsign_mul true false); [exact Hrate | apply fsign_not_below; exact Hspend].
Qed.


Lemma exp_near_zero_not_above_one (y : float) :
  (0 <? y) = false -> (1 <? Double.exp_near_zero y) = false.
Proof.
  intro H. unfold Double.exp_near_zero.
  destruct (is_nan y); [reflexivity|]. rewrite H.
  destruct (y <? 0); [|reflexivity].
  destruct (-1e-17 <? y); reflexivity.
Qed.

(** With a NaN budget the constraint function is NaN at every allocation. *)
Lemma nan_constraint (x : vec) : (c_fun (constraints nan) x =? 0) = false.
Proof.
  unfold constraints; simpl.
  rewrite FloatAxioms.eqb_spec, sub_spec, Prim2SF_nan. reflexivity.
Qed.

(** ** Traces *)

Lemma stages_entered_app (t u : list event) :
  stages_entered (t ++ u) = stages_entered t ++ stages_entered u.
Proof.
  induction t as [|e t IH]; simpl.
  - reflexivity.
  - destruct e; simpl; rewrite IH; reflexivity.
Qed.

Lemma reports_app (t u : list event) : reports (t ++ u) = reports t ++ reports u.
Proof.
  induction t as [|e t IH]; simpl.
  - reflexivity.
  - destruct e; simpl; rewrite IH; reflexivity.
Qed.

Lemma reports_enter (ss : list stage) : reports (map Enter ss) = [].
Proof.
  induction ss as [|s ss IH]; simpl; [reflexivity | exact IH].
Qed.

Lemma stages_entered_enter (ss : list stage) : stages_entered (map Enter ss) = ss.
Proof.
  induction ss as [|s ss IH]; simpl; [reflexivity | rewrite IH; reflexivity].
Qed.

(** ** The sample generator *)

(** The outcome of the sample generator does not depend on the world it
    starts from: the generator is re-seeded before the first draw. *)
Lemma generate_campaign_data_outcome {L : Library} (n seed : Z) (w1 w2 : world L) :
  fst (generate_campaign_data n seed w1) = fst (generate_campaign_data n seed w2).
Proof.
  unfold generate_campaign_data, bind, seed_global, normal_global, ret.
  destruct (np_random_seed seed) as [st|e]; simpl; [|reflexivity].
  destruct (np_random_normal 0.15 0.02 n st) as [[a|e] st1]; simpl; [|reflexivity].
  destruct (np_random_normal 0.10 0.02 n st1) as [[b|e] st2]; reflexivity.
Qed.

(** Sequencing keeps this independence: when neither the first program's
    outcome nor the continuation's depends on the world, their sequence's
    does not either. *)
Lemma bind_outcome {L : Library} {A B : Type} (c : M L A) (k : A -> M L B)
  (w1 w2 : world L) :
  fst (c w1) = fst (c w2) ->
  (forall a u1 u2, fst (k a u1) = fst (k a u2)) ->
  fst (bind c k w1) = fst (bind c k w2).
Proof.
  unfold bind. intros Hc Hk.
  destruct (c w1) as [o1 w1'], (c w2) as [o2 w2']; simpl in Hc; subst o2.
  destruct o1 as [a|e]; [apply Hk | reflexivity].
Qed.

(** The sample generator shows nothing and enters no stage by itself. *)
Lemma generate_campaign_data_trace {L : Library} (n seed : Z) (w : world L) :
  trace (snd (generate_campaign_data n seed w)) = trace w.
Proof.
  unfold generate_campaign_data, bind, seed_global, normal_global, ret.
  destruct (np_random_seed seed) as [st|e]; simpl; [|reflexivity].
  destruct (np_random_normal 0.15 0.02 n st) as [[a|e] st1]; simpl; [|reflexivity].
  destruct (np_random_normal 0.10 0.02 n st1) as [[b|e] st2]; reflexivity.
Qed.

Lemma generate_campaign_data_ok {L : Library} (n seed : Z) (w : world L)
  (st st1 st2 : rng_state) (campaign_A campaign_B : list float) :
  np_random_seed seed = Ok st ->
  np_random_normal 0.15 0.02 n st = (Ok campaign_A, st1) ->
  np_random_normal 0.10 0.02 n st1 = (Ok campaign_B, st2) ->
  generate_campaign_data n seed w
    = (Ok (campaign_A, campaign_B), {| rng := st2; trace := trace w |}).
Proof.
  intros Hseed HA HB.
  unfold generate_campaign_data, bind, seed_global, normal_global, ret.
  rewrite Hseed; simpl. rewrite HA; simpl. rewrite HB; simpl. reflexivity.
Qed.

(** ** The response curves *)




(** X22: from zero spend on the curves never return a value below zero
    (nor for a NaN spend).  [np.exp] is taken not to return more than 1 on an
    argument that is not positive. *)
Theorem nonnegative_spend_never_negative {L : Library} (spend : float) :
  (forall y, (0 <? y) = false -> (1 <? np_exp y) = false) ->
  (spend <? 0) = false ->
  (roi_curve_A spend <? 0) = false /\ (roi_curve_B spend <? 0) = false.
Proof.
  intros Hexp Hspend.
  split; apply curve_not_below; try assumption; vm_compute; reflexivity.
Qed.

Lemma nonnegative_spend_never_negative_witness :
  (@roi_curve_A Double.lib 1e-20 <? 0) = false
  /\ (@roi_curve_B Double.lib 1e-20 <? 0) = false.
Proof.
  apply (@nonnegative_spend_never_negative Double.lib 1e-20).
  - exact exp_near_zero_not_above_one.
  - reflexivity.
Defined.

(** ** The allocator *)

(** C3, as the code has it: [optimize_budget] reads neither [result.success]
    nor the constraint.  Whatever result object [minimize] returns, converged
    or not, feasible or not, comes back as the normal result
    [(result.x, -result.fun)]; [optimize_budget] raises exactly when
    [minimize] raises, and then the same exception. *)
Theorem optimize_budget_passes_solver_answer {L : Library} (total_budget : float) :
  (forall result,
     minimize neg_total_roi (initial_guess total_budget)
              (bounds total_budget) (constraints total_budget) = Ok result ->
     optimize_budget total_budget = Ok (res_x result, - res_fun result))
  /\ (forall e,
        minimize neg_total_roi (initial_guess total_budget)
                 (bounds total_budget) (constraints total_budget) = Raise e <->
        optimize_budget total_budget = Raise e).
Proof.
  unfold optimize_budget. split.
  - intros result H. rewrite H. reflexivity.
  - intro e.
    destruct (minimize neg_total_roi (initial_guess total_budget)
                (bounds total_budget) (constraints total_budget)) as [result|e'];
      simpl; split; intro H; try discriminate H;
      injection H as ->; reflexivity.
Qed.

Lemma optimize_budget_passes_solver_answer_witness :
  @optimize_budget Double.lib 39500
    = Ok ((19750, 19750), - @neg_total_roi Double.lib (19750, 19750))
  /\ (@optimize_budget Variant.refusing 39500 = Raise ValueError).
Proof.
  split.
  - apply (proj1 (@optimize_budget_passes_solver_answer Double.lib 39500)
             {| res_x := (19750, 19750);
                res_fun := @neg_total_roi Double.lib (19750, 19750);
                res_success := true |}).
    reflexivity.
  - apply (proj2 (@optimize_budget_passes_solver_answer Variant.refusing 39500)).
    reflexivity.
Defined.

(** C3 as stated fails: a budget of NaN, which both entry points accept.
    The constraint function is NaN at every allocation, so no answer of the
    solver satisfies it, and yet the allocator returns normally. *)
Lemma nan_budget_allocation_counterexample :
  (exists x v, @optimize_budget Double.lib nan = Ok (x, v))
  /\ (forall x, (c_fun (constraints nan) x =? 0) = false).
Proof.
  split.
  - eexists. eexists. reflexivity.
  - exact nan_constraint.
Qed.

Lemma leb_zero_trans (x b : float) :
  (0 <=? x) = true -> (x <=? b) = true -> (0 <=? b) = true.
Proof.
  rewrite !leb_spec, Prim2SF_zero.
  destruct (Prim2SF x) as [sx|sx| |sx mx ex], (Prim2SF b) as [sb|sb| |sb mb eb];
    simpl; try discriminate; try reflexivity;
    destruct sx, sb; simpl; try discriminate; try reflexivity.
Qed.

Lemma squeeze_zero (x b : float) :
  (0 <=? x) = true -> (x <=? b) = true -> (b =? 0) = true -> (x =? 0) = true.
Proof.
  rewrite !leb_spec, !FloatAxioms.eqb_spec, Prim2SF_zero.
  destruct (Prim2SF x) as [sx|sx| |sx mx ex], (Prim2SF b) as [sb|sb| |sb mb eb];
    simpl; try discriminate; try reflexivity;
    destruct sx; simpl; try discriminate; try reflexivity;
    destruct sb; simpl; try discriminate; try reflexivity.
Qed.

(** X8: the region searched shrinks with the budget.  An allocation
    satisfies the bounds and the constraint only for a budget that compares
    [>= 0] (so for no negative and for no NaN budget), and for a budget equal
    to zero both spends equal zero. *)
Theorem feasible_region_edges (total_budget : float) (x : vec) :
  feasible total_budget x ->
  (0 <=? total_budget) = true
  /\ ((total_budget =? 0) = true -> (fst x =? 0) = true /\ (snd x =? 0) = true).
Proof.
  unfold feasible, bounds. intros [_ Hb].
  inversion Hb as [|x0 b0 l0 l0' [H0l H0u] Hb']; subst.
  inversion Hb' as [|x1 b1 l1 l1' [H1l H1u] _]; subst.
  simpl in *. split.
  - apply (leb_zero_trans (fst x)); assumption.
  - intro Hz. split; [apply (squeeze_zero (fst x) total_budget)
                     | apply (squeeze_zero (snd x) total_budget)]; assumption.
Qed.

Lemma feasible_region_edges_witness :
  (0 <=? 0) = true /\ ((0 =? 0) = true -> (0 =? 0) = true /\ (0 =? 0) = true).
Proof.
  apply (feasible_region_edges 0 (0, 0)).
  split; [reflexivity|].
  repeat constructor.
Defined.

(** ** The sample generator and the significance test *)




(** C7: the samples depend on the seed and the count only, not on the state
    the global generator was left in, nor on anything else of the process;
    the same holds for the test figures computed from them.  In particular
    two calls in a row give the same samples twice. *)
Theorem sample_generator_deterministic {L : Library}
  (n seed : Z) (w1 w2 : world L) :
  fst (generate_campaign_data n seed w1) = fst (generate_campaign_data n seed w2)
  /\ fst (sampled_ab_test n seed w1) = fst (sampled_ab_test n seed w2)
  /\ fst (bind (generate_campaign_data n seed) (fun first =>
          bind (generate_campaign_data n seed) (fun second =>
          ret (first, second))) w1)
     = fst (bind (generate_campaign_data n seed) (fun once =>
            ret (once, once)) w1).
Proof.
  split; [|split].
  - apply generate_campaign_data_outcome.
  - unfold sampled_ab_test.
    apply bind_outcome.
    + apply generate_campaign_data_outcome.
    + intros [campaign_A campaign_B] u1 u2. reflexivity.
  - unfold bind, ret.
    destruct (generate_campaign_data n seed w1) as [[first|e] w'] eqn:Hfirst;
      [|reflexivity].
    pose proof (generate_campaign_data_outcome n seed w' w1) as Hsame.
    rewrite Hfirst in Hsame; simpl in Hsame.
    destruct (generate_campaign_data n seed w') as [o w'']; simpl in Hsame.
    subst o. reflexivity.
Qed.

(** X15: the sample generator leaves the process reproducible.  It shows
    nothing, and once the seed is accepted the state it leaves in the global
    generator depends on the seed and the count only, whatever the state
    before the call. *)
Theorem generate_campaign_data_leaves_state {L : Library}
  (n seed : Z) (w1 w2 : world L) (st : rng_state) :
  np_random_seed seed = Ok st ->
  rng (snd (generate_campaign_data n seed w1))
    = rng (snd (generate_campaign_data n seed w2))
  /\ trace (snd (generate_campaign_data n seed w1)) = trace w1.
Proof.
  intro Hseed. split; [|apply generate_campaign_data_trace].
  unfold generate_campaign_data, bind, seed_global, normal_global, ret.
  rewrite Hseed; simpl.
  destruct (np_random_normal 0.15 0.02 n st) as [[a|e] st1]; simpl; [|reflexivity].
  destruct (np_random_normal 0.10 0.02 n st1) as [[b|e] st2]; reflexivity.
Qed.

Lemma generate_campaign_data_leaves_state_witness :
  rng (snd (@generate_campaign_data Double.lib 100 42 Double.w0))
    = rng (snd (@generate_campaign_data Double.lib 100 42
                  (@Build_world Double.lib 7%Z [Print "earlier"])))
  /\ trace (snd (@generate_campaign_data Double.lib 100 42 Double.w0)) = [].
Proof.
  apply (@generate_campaign_data_leaves_state Double.lib 100 42 Double.w0
           (@Build_world Double.lib 7%Z [Print "earlier"]) 42%Z).
  reflexivity.
Defined.

(** ** The entry points *)

(** What a run of the pipeline leaves in the trace is the list of stages it
    entered, the sample generator first, and the figures of a completed run
    belong together. *)
Lemma pipeline_run {L : Library} (budget : float) (w : world L) :
  exists ss,
    trace (snd (pipeline budget w)) = trace w ++ map Enter (SampleGenerator :: ss)
    /\ forall r, fst (pipeline budget w) = Ok r ->
         r_total_budget r = budget
         /\ forecast_revenue (r_budget_A r) = Ok (r_forecast r)
         /\ r_significant r = (r_p_val r <? 0.05).
Proof.
  unfold pipeline, call, bind, emit, lift, ret.
  pose proof (generate_campaign_data_trace 100 42
                {| rng := rng w; trace := trace w ++ [Enter SampleGenerator] |}) as Ht.
  destruct (generate_campaign_data 100 42
              {| rng := rng w; trace := trace w ++ [Enter SampleGenerator] |})
    as [[[campaign_A campaign_B]|e] w1] eqn:Hgen; simpl in Ht.
  2:{ exists []. simpl. split; [exact Ht | intros r H; discriminate H]. }
  simpl.
  destruct (optimize_budget budget) as [[[budget_A budget_B] max_roi]|e]; simpl.
  2:{ exists [Allocator]. rewrite Ht, <- app_assoc. simpl.
      split; [reflexivity | intros r H; discriminate H]. }
  destruct (ab_test campaign_A campaign_B) as [[t_stat p_val]|e]; simpl.
  2:{ exists [Allocator; SignificanceTester].
      rewrite Ht, <- !app_assoc. simpl.
      split; [reflexivity | intros r H; discriminate H]. }
  destruct (forecast_revenue budget_A) as [forecast|e] eqn:Hforecast; simpl.
  2:{ exists [Allocator; SignificanceTester; Forecaster].
      rewrite Ht, <- !app_assoc. simpl.
      split; [reflexivity | intros r H; discriminate H]. }
  exists [Allocator; SignificanceTester; Forecaster].
  rewrite Ht, <- !app_assoc. simpl. split; [reflexivity|].
  intros r H. injection H as <-. simpl. repeat split. exact Hforecast.
Qed.

(** What the two entry points do with a budget they accept: they run the
    pipeline and show its report, or pass on what it raised. *)
Lemma main_accepts {L : Library} (budget : float) (w : world L) :
  (budget <=? 0) = false ->
  main (Ok budget) w
    = bind (pipeline budget) (fun r => emit (PrintResults r)) w
  /\ run_optimizer (Ok budget) w
    = bind (pipeline budget) (fun r => emit (ShowResults r)) w.
Proof.
  intro Hpos. unfold main, run_optimizer; simpl.
  rewrite Hpos. split; reflexivity.
Qed.

(** What they do with anything else: at most one message, no report. *)
Lemma entry_rejects {L : Library} (typed : outcome float) (w : world L) :
  (forall budget, typed = Ok budget -> (budget <=? 0) = true) ->
  reports (trace (snd (main typed w))) = reports (trace w)
  /\ reports (trace (snd (run_optimizer typed w))) = reports (trace w)
  /\ stages_entered (trace (snd (main typed w))) = stages_entered (trace w)
  /\ stages_entered (trace (snd (run_optimizer typed w))) = stages_entered (trace w)
  /\ fst (main typed w) = fst (run_optimizer typed w)
  /\ rng (snd (main typed w)) = rng w
  /\ rng (snd (run_optimizer typed w)) = rng w.
Proof.
  intro Hrej. unfold main, run_optimizer.
  destruct typed as [budget|e]; simpl.
  - rewrite (Hrej budget eq_refl).
    unfold emit; simpl. rewrite !reports_app, !stages_entered_app; simpl.
    rewrite !app_nil_r. repeat split.
  - destruct e as [|cls]; unfold emit, lift; simpl.
    + rewrite !reports_app, !stages_entered_app; simpl.
      rewrite !app_nil_r. repeat split.
    + repeat split.
Qed.

(** C5, as the code has it.  Input for which [float] raises [ValueError],
    or that converts to a float comparing [<= 0], is answered with one
    message for the user and nothing else: no stage of the pipeline is
    entered, the generator is left as it was, and the entry point returns.
    Every other float is accepted and the pipeline is started; that includes
    NaN and infinity, which the texts nan and inf convert to.  This holds for
    the console entry point and for the form. *)
Theorem invalid_budget_rejected {L : Library} (typed : outcome float) (w : world L) :
  (typed = Raise ValueError
   \/ (exists budget, typed = Ok budget /\ (budget <=? 0) = true) ->
   main typed w =
     (Ok tt, {| rng := rng w; trace := trace w ++ [Print (rejection_text typed)] |})
   /\ run_optimizer typed w =
        (Ok tt, {| rng := rng w;
                   trace := trace w ++
                     [ShowError "Input Error" "Please enter a valid positive number."] |})
   /\ stages_entered (trace (snd (main typed w))) = stages_entered (trace w)
   /\ stages_entered (trace (snd (run_optimizer typed w))) = stages_entered (trace w))
  /\ (forall budget, typed = Ok budget -> (budget <=? 0) = false ->
      exists rest,
        stages_entered (trace (snd (main typed w)))
          = stages_entered (trace w) ++ SampleGenerator :: rest
        /\ stages_entered (trace (snd (run_optimizer typed w)))
          = stages_entered (trace w) ++ SampleGenerator :: rest).
Proof.
  split.
  - intros [-> | [budget [-> Hle]]].
    + repeat split.
      * unfold main, emit; simpl. rewrite stages_entered_app; simpl.
        apply app_nil_r.
      * unfold run_optimizer, emit; simpl. rewrite stages_entered_app; simpl.
        apply app_nil_r.
    + unfold main, run_optimizer; simpl. rewrite Hle.
      repeat split.
      * unfold emit; simpl. rewrite stages_entered_app; simpl. apply app_nil_r.
      * unfold emit; simpl. rewrite stages_entered_app; simpl. apply app_nil_r.
  - intros budget -> Hacc.
    destruct (main_accepts budget w Hacc) as [-> ->].
    destruct (pipeline_run budget w) as [ss [Htrace _]].
    exists ss. unfold bind, emit.
    destruct (pipeline budget w) as [[shown|e] w']; cbn [fst snd] in Htrace;
      cbn [fst snd trace].
    + rewrite !stages_entered_app, Htrace, stages_entered_app, stages_entered_enter.
      simpl. rewrite !app_nil_r. split; reflexivity.
    + rewrite Htrace, stages_entered_app, stages_entered_enter.
      split; reflexivity.
Qed.

Lemma invalid_budget_rejected_witness :
  stages_entered (trace (snd (@main Double.lib (Ok (-5)) Double.w0))) = []
  /\ stages_entered (trace (snd (@run_optimizer Double.lib (Raise ValueError) Double.w0))) = []
  /\ exists rest,
       stages_entered (trace (snd (@main Double.lib (Ok 39500) Double.w0)))
         = [] ++ SampleGenerator :: rest
       /\ stages_entered (trace (snd (@run_optimizer Double.lib (Ok 39500) Double.w0)))
         = [] ++ SampleGenerator :: rest.
Proof.
  split; [|split].
  - apply (proj1 (@invalid_budget_rejected Double.lib (Ok (-5)) Double.w0)).
    right. exists (-5). split; reflexivity.
  - apply (proj1 (@invalid_budget_rejected Double.lib (Raise ValueError) Double.w0)).
    left. reflexivity.
  - apply (proj2 (@invalid_budget_rejected Double.lib (Ok 39500) Double.w0) 39500);
      reflexivity.
Defined.

(** C5 as stated fails: the text nan is not a number, but [float] converts
    it to NaN, NaN does not compare [<= 0], and both entry points go through
    all four stages and show a report. *)
Lemma nan_budget_accepted_counterexample :
  (nan <=? 0) = false
  /\ stages_entered (trace (snd (@main Double.lib (Ok nan) Double.w0)))
     = [SampleGenerator; Allocator; SignificanceTester; Forecaster]
  /\ stages_entered (trace (snd (@run_optimizer Double.lib (Ok nan) Double.w0)))
     = [SampleGenerator; Allocator; SignificanceTester; Forecaster]
  /\ List.length (reports (trace (snd (@main Double.lib (Ok nan) Double.w0)))) = 1%nat
  /\ List.length (reports (trace (snd (@run_optimizer Double.lib (Ok nan) Double.w0))))
     = 1%nat.
Proof.
  repeat split.
Qed.

(** X11: a complete run.  For a budget that is accepted, when the generator
    accepts seed 42 and draws two samples of 100, the solver returns a
    result, the t-test a pair and the forecast a value, both entry points go
    through the four stages in order and then produce one report, the
    figures of the run: the budget typed, the solver's two spends, minus its
    objective value, the t-test pair (the form displays all of them but the
    t-statistic), the verdict [p < 0.05] and the value [forecast_revenue]
    returned for campaign A's spend.  The generator is left as the second
    draw left it. *)
Theorem complete_run_reports {L : Library} (budget : float) (w : world L)
  (st st1 st2 : rng_state) (campaign_A campaign_B : list float)
  (result : OptimizeResult) (t_stat p_val revenue : float) :
  (budget <=? 0) = false ->
  np_random_seed 42 = Ok st ->
  np_random_normal 0.15 0.02 100 st = (Ok campaign_A, st1) ->
  np_random_normal 0.10 0.02 100 st1 = (Ok campaign_B, st2) ->
  minimize neg_total_roi (initial_guess budget) (bounds budget) (constraints budget)
    = Ok result ->
  ttest_ind campaign_A campaign_B = Ok (t_stat, p_val) ->
  forecast_revenue (fst (res_x result)) = Ok revenue ->
  let shown :=
    {| r_total_budget := budget;
       r_budget_A := fst (res_x result);
       r_budget_B := snd (res_x result);
       r_max_roi := - res_fun result;
       r_t_stat := t_stat;
       r_p_val := p_val;
       r_significant := (p_val <? 0.05);
       r_forecast := revenue |} in
  let entered :=
    [Enter SampleGenerator; Enter Allocator; Enter SignificanceTester; Enter Forecaster] in
  main (Ok budget) w
    = (Ok tt, {| rng := st2; trace := trace w ++ entered ++ [PrintResults shown] |})
  /\ run_optimizer (Ok budget) w
    = (Ok tt, {| rng := st2; trace := trace w ++ entered ++ [ShowResults shown] |}).
Proof.
  intros Hacc Hseed HA HB Hmin Httest Hforecast shown entered.
  assert (Hpipe : pipeline budget w
                  = (Ok shown, {| rng := st2; trace := trace w ++ entered |})).
  { unfold pipeline, call, bind, emit, lift, ret.
    rewrite (generate_campaign_data_ok 100 42 _ st st1 st2 campaign_A campaign_B
               Hseed HA HB).
    simpl. unfold optimize_budget. rewrite Hmin. simpl.
    destruct (res_x result) as [budget_A budget_B] eqn:Hx. simpl in *.
    unfold ab_test. rewrite Httest. simpl.
    rewrite Hforecast. simpl.
    unfold shown, entered. rewrite <- !app_assoc. reflexivity. }
  destruct (main_accepts budget w Hacc) as [-> ->].
  unfold bind, emit. rewrite Hpipe. simpl.
  rewrite <- !app_assoc. split; reflexivity.
Qed.

Lemma complete_run_reports_witness :
  exists shown,
    reports (trace (snd (@main Double.lib (Ok 39500) Double.w0))) = [shown]
    /\ r_total_budget shown = 39500
    /\ r_budget_A shown = 19750
    /\ r_budget_B shown = 19750.
Proof.
  destruct (@complete_run_reports Double.lib 39500 Double.w0
              42%Z 142%Z 242%Z (repeat 0.15 100) (repeat 0.10 100)
              {| res_x := (19750, 19750);
                 res_fun := @neg_total_roi Double.lib (19750, 19750);
                 res_success := true |} 0 1
              (@roi_curve_A Double.lib (19750 / 12) * (12 - 0))) as [Hmain _];
    try reflexivity.
  rewrite Hmain. eexists. split; [reflexivity|]. repeat split.
Defined.

(** X12: every report shown is consistent.  A report that appears in the
    trace of either entry point was either there before the run, or it shows
    the budget that was typed, which does not compare [<= 0], the forecast
    computed for the spend on campaign A that it shows, and the verdict
    "significant" exactly when the p-value it shows is below 0.05 (never for
    NaN). *)
Theorem shown_report_consistent {L : Library}
  (typed : outcome float) (w : world L) (r : report) :
  In r (reports (trace (snd (main typed w))))
  \/ In r (reports (trace (snd (run_optimizer typed w)))) ->
  In r (reports (trace w))
  \/ (typed = Ok (r_total_budget r)
      /\ (r_total_budget r <=? 0) = false
      /\ forecast_revenue (r_budget_A r) = Ok (r_forecast r)
      /\ r_significant r = (r_p_val r <? 0.05)).
Proof.
  intro Hin.
  destruct typed as [budget|e].
  2:{ left. destruct (entry_rejects (Raise e) w) as [Hm [Hr _]].
      - intros budget H. discriminate H.
      - rewrite Hm, Hr in Hin. tauto. }
  destruct (budget <=? 0) eqn:Hacc.
  { left. destruct (entry_rejects (Ok budget) w) as [Hm [Hr _]].
    - intros b H. injection H as <-. exact Hacc.
    - rewrite Hm, Hr in Hin. tauto. }
  destruct (main_accepts budget w Hacc) as [Hmain Hrun].
  rewrite Hmain, Hrun in Hin. clear Hmain Hrun.
  destruct (pipeline_run budget w) as [ss [Htrace Hfig]].
  unfold bind, emit in Hin.
  destruct (pipeline budget w) as [[shown|e] w'] eqn:Hpipe;
    cbn [fst snd trace] in Htrace, Hin, Hfig.
  - rewrite Htrace, !reports_app, reports_enter in Hin. simpl in Hin.
    rewrite app_nil_r in Hin.
    assert (Hcase : In r (reports (trace w)) \/ r = shown).
    { destruct Hin as [Hin|Hin]; apply in_app_or in Hin;
        destruct Hin as [Hin|[Hin|[]]]; auto. }
    destruct Hcase as [Hold | ->]; [left; exact Hold | right].
    destruct (Hfig shown eq_refl) as [Hb [Hf Hs]].
    rewrite Hb. repeat split; assumption.
  - rewrite Htrace, reports_app, reports_enter, app_nil_r in Hin. tauto.
Qed.

Lemma shown_report_consistent_witness :
  exists r,
    In r (reports (trace (snd (@main Double.lib (Ok 39500) Double.w0))))
    /\ Ok 39500 = Ok (r_total_budget r)
    /\ (r_total_budget r <=? 0) = false
    /\ @forecast_revenue Double.lib (r_budget_A r) = Ok (r_forecast r)
    /\ r_significant r = (r_p_val r <? 0.05).
Proof.
  assert (Hacc : (39500 <=? 0) = false) by reflexivity.
  destruct (@main_accepts Double.lib 39500 Double.w0 Hacc) as [Hmain _].
  eexists. split.
  - rewrite Hmain. left. reflexivity.
  - match goal with
    | |- Ok _ = Ok (r_total_budget ?r) /\ _ =>
        destruct (@shown_report_consistent Double.lib (Ok 39500) Double.w0 r)
          as [Hold | Hnew]
    end.
    + left. rewrite Hmain. left. reflexivity.
    + destruct Hold.
    + exact Hnew.
Defined.

(** X13: a failure inside the pipeline is not answered.  When the samples
    are drawn and the solver raises, each entry point raises the same
    exception after entering the first two stages, and shows neither a
    message nor a report.  This holds for [ValueError] too: the handler that
    answers bad input does not cover the pipeline. *)
Theorem solver_error_propagates {L : Library} (budget : float) (w : world L)
  (st st1 st2 : rng_state) (campaign_A campaign_B : list float) (e : exn) :
  (budget <=? 0) = false ->
  np_random_seed 42 = Ok st ->
  np_random_normal 0.15 0.02 100 st = (Ok campaign_A, st1) ->
  np_random_normal 0.10 0.02 100 st1 = (Ok campaign_B, st2) ->
  minimize neg_total_roi (initial_guess budget) (bounds budget) (constraints budget)
    = Raise e ->
  let left_behind :=
    {| rng := st2; trace := trace w ++ [Enter SampleGenerator; Enter Allocator] |} in
  main (Ok budget) w = (Raise e, left_behind)
  /\ run_optimizer (Ok budget) w = (Raise e, left_behind).
Proof.
  intros Hacc Hseed HA HB Hmin left_behind.
  destruct (main_accepts budget w Hacc) as [-> ->].
  assert (Hpipe : pipeline budget w = (Raise e, left_behind)).
  { unfold pipeline, call, bind, emit, lift, ret.
    rewrite (generate_campaign_data_ok 100 42 _ st st1 st2 campaign_A campaign_B
               Hseed HA HB).
    simpl. unfold optimize_budget. rewrite Hmin. simpl.
    unfold left_behind. rewrite <- app_assoc. reflexivity. }
  unfold bind. rewrite Hpipe. split; reflexivity.
Qed.

Lemma solver_error_propagates_witness :
  @main Variant.refusing (Ok 10000) Variant.w_refusing
    = (Raise ValueError,
       @Build_world Variant.refusing 242%Z [Enter SampleGenerator; Enter Allocator]).
Proof.
  apply (@solver_error_propagates Variant.refusing 10000 Variant.w_refusing
           42%Z 142%Z 242%Z (repeat 0.15 100) (repeat 0.10 100) ValueError);
    reflexivity.
Defined.

(** X14: the console and the form agree.  On every input, from every state,
    the two entry points return or raise alike, leave the generator in the
    same state, enter the same stages and produce the same reports; they
    differ only in how a message or a report is displayed. *)
Theorem entry_points_agree {L : Library} (typed : outcome float) (w : world L) :
  fst (main typed w) = fst (run_optimizer typed w)
  /\ rng (snd (main typed w)) = rng (snd (run_optimizer typed w))
  /\ stages_entered (trace (snd (main typed w)))
     = stages_entered (trace (snd (run_optimizer typed w)))
  /\ reports (trace (snd (main typed w)))
     = reports (trace (snd (run_optimizer typed w))).
Proof.
  assert (Hrej : (forall budget, typed = Ok budget -> (budget <=? 0) = true) ->
                 fst (main typed w) = fst (run_optimizer typed w)
                 /\ rng (snd (main typed w)) = rng (snd (run_optimizer typed w))
                 /\ stages_entered (trace (snd (main typed w)))
                    = stages_entered (trace (snd (run_optimizer typed w)))
                 /\ reports (trace (snd (main typed w)))
                    = reports (trace (snd (run_optimizer typed w)))).
  { intro H. destruct (entry_rejects typed w H)
      as [Hm [Hr [Hsm [Hsr [Ho [Hgm Hgr]]]]]].
    rewrite Hm, Hr, Hsm, Hsr, Hgm, Hgr. repeat split. exact Ho. }
  destruct typed as [budget|e].
  2:{ apply Hrej. intros budget H. discriminate H. }
  destruct (budget <=? 0) eqn:Hacc.
  { apply Hrej. intros b H. injection H as <-. exact Hacc. }
  clear Hrej.
  destruct (main_accepts budget w Hacc) as [-> ->].
  unfold bind, emit.
  destruct (pipeline budget w) as [[shown|e] w']; simpl.
  - rewrite !stages_entered_app, !reports_app. simpl. repeat split.
  - repeat split.
Qed.

(** ** The stock class *)

Module StockFacts.
Import Stock.

Lemma get_set_same (df : frame) (name : string) (c : series) :
  get_col (set_col df name c) name = Some c.
Proof.
  induction df as [|[n c0] df IH]; simpl.
  - rewrite String.eqb_refl. reflexivity.
  - destruct (String.eqb n name) eqn:E; simpl; rewrite E; [reflexivity | exact IH].
Qed.

Lemma get_set_other (df : frame) (name other : string) (c : series) :
  name <> other ->
  get_col (set_col df name c) other = get_col df other.
Proof.
  intro Hne. induction df as [|[n c0] df IH]; simpl.
  - apply String.eqb_neq in Hne. rewrite Hne. reflexivity.
  - destruct (String.eqb n name) eqn:E; simpl.
    + apply String.eqb_eq in E. subst n.
      apply String.eqb_neq in Hne. rewrite Hne. reflexivity.
    + rewrite IH. reflexivity.
Qed.

Lemma set_get_id (df : frame) (name : string) (c : series) :
  get_col df name = Some c -> set_col df name c = df.
Proof.
  induction df as [|[n c0] df IH]; simpl; intro H.
  - discriminate H.
  - destruct (String.eqb n name) eqn:E.
    + injection H as ->. reflexivity.
    + rewrite (IH H). reflexivity.
Qed.

Lemma rectangular_get (df : frame) (rows : nat) (name : string) (c : series) :
  rectangular df rows -> get_col df name = Some c -> List.length c = rows.
Proof.
  unfold rectangular. induction df as [|[n c0] df IH]; simpl; intros Hr H.
  - discriminate H.
  - pose proof (Forall_inv Hr) as Hc. pose proof (Forall_inv_tail Hr) as Hr'.
    simpl in Hc.
    destruct (String.eqb n name).
    + injection H as <-. exact Hc.
    + apply IH; assumption.
Qed.

Lemma rectangular_set (df : frame) (rows : nat) (name : string) (c : series) :
  rectangular df rows -> List.length c = rows -> rectangular (set_col df name c) rows.
Proof.
  unfold rectangular. intros Hr Hc.
  induction df as [|[n c0] df IH]; simpl.
  - constructor; [exact Hc | constructor].
  - pose proof (Forall_inv Hr) as Hc0. pose proof (Forall_inv_tail Hr) as Hr'.
    destruct (String.eqb n name); constructor; auto.
Qed.

Lemma rectangular_empty (df : frame) (rows : nat) :
  rectangular df rows -> df <> [] -> (empty df = false <-> rows <> 0%nat).
Proof.
  unfold rectangular. intros Hr Hne.
  destruct df as [|[n c] df]; [contradiction|].
  pose proof (Forall_inv Hr) as Hc. simpl in *.
  destruct c; simpl in *; subst rows; split; intro H;
    try discriminate; try reflexivity; try (exfalso; apply H; reflexivity).
Qed.

Lemma set_col_not_nil (df : frame) (name : string) (c : series) :
  set_col df name c <> [].
Proof.
  destruct df as [|[n c0] df]; simpl; [discriminate|].
  destruct (String.eqb n name); discriminate.
Qed.

Lemma diff_from_length (prev : float) (s : series) :
  List.length (diff_from prev s) = List.length s.
Proof.
  revert prev. induction s as [|v s IH]; intro prev; simpl;
    [reflexivity | rewrite IH; reflexivity].
Qed.

Lemma diff_length (s : series) : List.length (diff s) = List.length s.
Proof.
  destruct s as [|v s]; simpl; [reflexivity | rewrite diff_from_length; reflexivity].
Qed.

Section Returns.

Variable np_log : float -> float.
Variable round4 : float -> float.

(** What [calc_returns] does to data that has rows and a close column. *)
Lemma calc_returns_ok (data : frame) (rows : nat) (s : series) :
  rectangular data rows ->
  empty data = false ->
  get_col data "close" = Some s ->
  let data' :=
    set_col (set_col data "price_change" (diff s))
            "instant_return" (map round4 (diff (map np_log s))) in
  calc_returns np_log round4 data = Ok data'
  /\ get_col data' "close" = Some s
  /\ get_col data' "price_change" = Some (diff s)
  /\ get_col data' "instant_return" = Some (map round4 (diff (map np_log s)))
  /\ rectangular data' rows
  /\ empty data' = false.
Proof.
  intros Hrect Hne Hclose data'.
  pose proof (rectangular_get data rows "close" s Hrect Hclose) as Hlen.
  assert (Hrect' : rectangular data' rows).
  { unfold data'. apply rectangular_set; [apply rectangular_set|].
    - exact Hrect.
    - rewrite diff_length. exact Hlen.
    - rewrite length_map, diff_length, length_map. exact Hlen. }
  assert (Hrows : rows <> 0%nat).
  { apply (rectangular_empty data rows Hrect); [|exact Hne].
    intro Hnil. subst data. discriminate Hclose. }
  split; [|split; [|split; [|split; [|split]]]].
  - unfold calc_returns. rewrite Hne, Hclose. reflexivity.
  - unfold data'. rewrite !get_set_other by discriminate. exact Hclose.
  - unfold data'. rewrite get_set_other by discriminate. apply get_set_same.
  - unfold data'. apply get_set_same.
  - exact Hrect'.
  - apply (rectangular_empty data' rows Hrect'); [|exact Hrows].
    unfold data'. apply set_col_not_nil.
Qed.

(** X16: [calc_returns] on data with at least one row and a close column
    succeeds; it leaves the close column as it was and the frame rectangular,
    and afterwards the price-change column is the day-over-day difference of
    the closes and the return column the rounded difference of their
    logarithms, each with one entry per row. *)
Theorem calc_returns_adds_columns (data : frame) (rows : nat) (s : series) :
  rectangular data rows ->
  empty data = false ->
  get_col data "close" = Some s ->
  exists data',
    calc_returns np_log round4 data = Ok data'
    /\ get_col data' "close" = Some s
    /\ get_col data' "price_change" = Some (diff s)
    /\ get_col data' "instant_return" = Some (map round4 (diff (map np_log s)))
    /\ List.length (diff s) = rows
    /\ List.length (map round4 (diff (map np_log s))) = rows
    /\ rectangular data' rows.
Proof.
  intros Hrect Hne Hclose.
  destruct (calc_returns_ok data rows s Hrect Hne Hclose)
    as [Hcalc [Hc [Hp [Hi [Hr _]]]]].
  eexists. split; [exact Hcalc|].
  pose proof (rectangular_get data rows "close" s Hrect Hclose) as Hlen.
  repeat split; try assumption.
  - rewrite diff_length. exact Hlen.
  - rewrite length_map, diff_length, length_map. exact Hlen.
Qed.

(** X17: [calc_returns] can be called again.  On the data a successful call
    leaves, a second call succeeds and changes nothing. *)
Theorem calc_returns_idempotent (data data' : frame) (rows : nat) :
  rectangular data rows ->
  calc_returns np_log round4 data = Ok data' ->
  calc_returns np_log round4 data' = Ok data'.
Proof.
  intros Hrect Hcalc.
  unfold calc_returns in Hcalc.
  destruct (empty data) eqn:Hne; [discriminate Hcalc|].
  destruct (get_col data "close") as [s|] eqn:Hclose; [|discriminate Hcalc].
  destruct (calc_returns_ok data rows s Hrect Hne Hclose)
    as [_ [Hc [Hp [Hi [Hr He]]]]].
  injection Hcalc as Hd. rewrite Hd in *.
  unfold calc_returns. rewrite He, Hc.
  rewrite (set_get_id data' "price_change" (diff s) Hp).
  rewrite (set_get_id data' "instant_return" _ Hi).
  reflexivity.
Qed.

(** X19: one day of prices gives no return to plot.  After [calc_returns] on
    data with a single row, [plot_return_dist] raises [RuntimeError] whatever
    the bins asked for; rounding is assumed to keep NaN. *)
Theorem single_day_has_no_returns (data : frame) (v : float) :
  round4 nan = nan ->
  rectangular data 1 ->
  get_col data "close" = Some [v] ->
  exists data',
    calc_returns np_log round4 data = Ok data'
    /\ forall bins, plot_return_dist_bins data' bins = Raise RuntimeError.
Proof.
  intros Hround Hrect Hclose.
  assert (Hne : empty data = false).
  { apply (rectangular_empty data 1 Hrect).
    - intro Hnil. subst data. discriminate Hclose.
    - discriminate. }
  destruct (calc_returns_ok data 1 _ Hrect Hne Hclose) as [Hcalc [_ [_ [Hi _]]]].
  eexists. split; [exact Hcalc|].
  intro bins. unfold plot_return_dist_bins. rewrite Hi. simpl.
  rewrite Hround. reflexivity.
Qed.

End Returns.

Lemma calc_returns_adds_columns_witness :
  exists data',
    calc_returns (fun v => v) (fun v => v) [("close"%string, [10; 12; 9])]
      = Ok data'
    /\ get_col data' "close" = Some [10; 12; 9]
    /\ get_col data' "price_change" = Some (diff [10; 12; 9])
    /\ get_col data' "instant_return"
       = Some (map (fun v => v) (diff (map (fun v => v) [10; 12; 9])))
    /\ List.length (diff [10; 12; 9]) = 3%nat
    /\ List.length (map (fun v : float => v)
                      (diff (map (fun v => v) [10; 12; 9]))) = 3%nat
    /\ rectangular data' 3.
Proof.
  apply (calc_returns_adds_columns (fun v => v) (fun v => v)
           [("close"%string, [10; 12; 9])] 3 [10; 12; 9]).
  - repeat constructor.
  - reflexivity.
  - reflexivity.
Defined.

Lemma calc_returns_idempotent_witness :
  calc_returns (fun v => v) (fun v => v)
    [("close"%string, [10; 12]);
     ("price_change"%string, diff [10; 12]);
     ("instant_return"%string, diff [10; 12])]
  = Ok [("close"%string, [10; 12]);
        ("price_change"%string, diff [10; 12]);
        ("instant_return"%string, diff [10; 12])].
Proof.
  apply (calc_returns_idempotent (fun v => v) (fun v => v)
           [("close"%string, [10; 12])] _ 2).
  - repeat constructor.
  - reflexivity.
Defined.

Lemma single_day_has_no_returns_witness :
  exists data',
    calc_returns (fun v => v) (fun v => v) [("close"%string, [10])] = Ok data'
    /\ forall bins, plot_return_dist_bins data' bins = Raise RuntimeError.
Proof.
  apply (single_day_has_no_returns (fun v => v) (fun v => v)
           [("close"%string, [10])] 10).
  - reflexivity.
  - repeat constructor.
  - reflexivity.
Defined.

(** X20: the default number of bins.  When there is at least one return and
    no bin count is asked for, the histogram gets at least 15 bins: exactly
    15 below 256 returns, and from 256 on the integer square root of their
    number.  A bin count that is asked for is used as given. *)
Theorem default_bins (data : frame) (c : series) :
  get_col data "instant_return" = Some c ->
  dropna c <> [] ->
  (forall b, plot_return_dist_bins data (Some b) = Ok b)
  /\ exists bins,
       plot_return_dist_bins data None = Ok bins
       /\ (15 <= bins)%Z
       /\ ((List.length (dropna c) < 256)%nat -> bins = 15%Z)
       /\ ((256 <= List.length (dropna c))%nat ->
           (bins * bins <= Z.of_nat (List.length (dropna c))
              < (bins + 1) * (bins + 1))%Z).
Proof.
  intros Hcol Hne. unfold plot_return_dist_bins. rewrite Hcol.
  destruct (dropna c) as [|r0 r] eqn:Hr; [contradiction|].
  split; [reflexivity|].
  set (n := Z.of_nat (List.length (r0 :: r))).
  exists (Z.max 15 (Z.sqrt n)).
  assert (Hn : (0 <= n)%Z) by apply Nat2Z.is_nonneg.
  pose proof (Z.sqrt_spec n Hn) as Hspec.
  split; [reflexivity|]. split; [apply Z.le_max_l|]. split.
  - intro Hlt. apply Z.max_l.
    assert (Hn256 : (n < 256)%Z)
      by (unfold n; apply (Nat2Z.inj_lt _ 256); exact Hlt).
    destruct (Z.le_gt_cases (Z.sqrt n) 15) as [Hle|Hgt]; [exact Hle|].
    exfalso.
    assert (16 * 16 <= Z.sqrt n * Z.sqrt n)%Z
      by (apply Z.mul_le_mono_nonneg; auto with zarith).
    destruct Hspec as [Hlow _].
    apply (Z.lt_irrefl 256).
    apply Z.le_lt_trans with n; [|exact Hn256].
    apply Z.le_trans with (Z.sqrt n * Z.sqrt n)%Z; [exact H | exact Hlow].
  - intro Hge.
    assert (Hn256 : (256 <= n)%Z)
      by (unfold n; apply (Nat2Z.inj_le 256); exact Hge).
    assert (Hs : (16 <= Z.sqrt n)%Z).
    { change 16%Z with (Z.sqrt 256). apply Z.sqrt_le_mono. exact Hn256. }
    rewrite Z.max_r by (apply Z.le_trans with 16%Z; [discriminate | exact Hs]).
    unfold Z.succ in Hspec. exact Hspec.
Qed.

Lemma default_bins_witness :
  (forall b, plot_return_dist_bins
               [("instant_return"%string, [nan; 0.01; -0.02])] (Some b) = Ok b)
  /\ exists bins,
       plot_return_dist_bins
         [("instant_return"%string, [nan; 0.01; -0.02])] None = Ok bins
       /\ (15 <= bins)%Z
       /\ ((List.length (dropna [nan; 0.01; -0.02]%float) < 256)%nat -> bins = 15%Z)
       /\ ((256 <= List.length (dropna [nan; 0.01; -0.02]%float))%nat ->
           (bins * bins <= Z.of_nat (List.length (dropna [nan; 0.01; -0.02]%float))
              < (bins + 1) * (bins + 1))%Z).
Proof.
  apply (default_bins [("instant_return"%string, [nan; 0.01; -0.02])]
           [nan; 0.01; -0.02]).
  - reflexivity.
  - discriminate.
Defined.

End StockFacts.
